(** * Machine actuator of the vSphere cluster-api provider

    A shallow embedding of [pkg/cloud/vsphere/actuators/machine/actuator.go]:
    the four entry points [Create], [Delete], [Update] and [Exists] of the
    machine [Actuator], the order in which they call their collaborators,
    and the errors they return.

    The collaborating packages ([context], [govmomi], [kubeclient],
    [tokens], [record]) are outside the embedded file.  Their functions are
    fields of a record of collaborators acting on an abstract world [W];
    every call the actuator makes is also logged, in order, in a per
    invocation list of [Call]s, so that "is called", "is never called" and
    "is called after" are statements about that list. *)

From Stdlib Require Import String List ZArith Bool Lia.
Import ListNotations.
Open Scope string_scope.
Open Scope list_scope.

(** ** Data *)

(** [time.Duration]: a signed 64-bit count of nanoseconds.  Only constants
    far below 2^63 occur in the actuator. *)
Definition Duration := Z.

Module time.
Definition Nanosecond : Duration := 1%Z.
Definition Microsecond : Duration := (1000 * Nanosecond)%Z.
Definition Millisecond : Duration := (1000 * Microsecond)%Z.
Definition Second : Duration := (1000 * Millisecond)%Z.
Definition Minute : Duration := (60 * Second)%Z.
End time.

(** [const defaultTokenTTL = 10 * time.Minute] *)
Definition defaultTokenTTL : Duration := (10 * time.Minute)%Z.

(** Object metadata of the two API objects handed to the actuator. *)
Record Cluster := { ClusterNamespace : string; ClusterName : string }.
Record Machine := { MachineNamespace : string; MachineName : string }.

(** Opaque handles: [goctx.Context], the two clientsets of the actuator,
    and the client of the target cluster. *)
Definition GoContext := nat.
Definition ClusterV1alpha1Interface := nat.
Definition CoreV1Interface := nat.
Definition KubeClient := nat.

(** The CA key pair of the cluster provider configuration. *)
Record KeyPair := { Cert : list nat; Key : list nat }.

Record ClusterProviderConfig := { CAKeyPair : KeyPair }.

(** Modelled from the spec: [KeyPair.HasCertAndKey] is declared in the
    provider's API types, outside the embedded file.  The key pair is
    fully populated when both the certificate and the private key are
    present. *)
Definition HasCertAndKey (kp : KeyPair) : bool :=
  negb (Nat.eqb (length (Cert kp)) 0) && negb (Nat.eqb (length (Key kp)) 0).

(** [context.ClusterContextParams] and [context.MachineContextParams]. *)
Record ClusterContextParams := {
  ParamContext : GoContext;
  ParamCluster : Cluster;
  ParamClient : ClusterV1alpha1Interface;
  ParamCoreClient : CoreV1Interface;
  ParamLogger : option string
}.

Record MachineContextParams := {
  ParamClusterContext : ClusterContextParams;
  ParamMachine : Machine
}.

(** [context.ClusterContext] and [context.MachineContext], with the fields
    the actuator reads. *)
Record ClusterContext := {
  CtxCluster : Cluster;
  ClusterConfig : ClusterProviderConfig
}.

Record MachineContext := {
  ClusterContextOf : ClusterContext;
  MachineOf : Machine
}.

(** Go [error] values.  [Opaque] is an error made by a collaborator;
    [Errorf] and [Wrapf] are those of [github.com/pkg/errors], kept as the
    format string and its argument (the context printed with [%q]);
    [RequeueAfterError] is [clustererr.RequeueAfterError].  A nil [error]
    is [None]. *)
Inductive error : Type :=
| Opaque (msg : string)
| Errorf (format : string) (ctx : MachineContext)
| Wrapf (cause : error) (format : string) (ctx : MachineContext)
| RequeueAfterError (RequeueAfter : Duration).

(** Is the error a requeue request (the retry-after outcome)? *)
Definition isRequeueAfter (e : option error) : bool :=
  match e with
  | Some (RequeueAfterError _) => true
  | _ => false
  end.

(** ** Calls made by the actuator *)

Inductive Call : Type :=
| CallNewMachineContext (params : MachineContextParams)
| CallLoggerInfo (v : nat) (msg : string) (keysAndValues : list (string * string))
| CallGetControlPlaneMachines (ctx : MachineContext)
| CallGetControlPlaneStatus (ctx : ClusterContext)
| CallGetKubeClientForCluster (ctx : ClusterContext)
| CallNewBootstrap (client : KubeClient) (ttl : Duration)
| CallGovmomiCreate (ctx : MachineContext) (token : string)
| CallGovmomiDelete (ctx : MachineContext)
| CallGovmomiUpdate (ctx : MachineContext)
| CallGovmomiExists (ctx : MachineContext)
| CallPatch (ctx : MachineContext)
| CallEventf (object : Machine) (reason format : string) (ctx : MachineContext)
| CallWarnf (object : Machine) (reason format : string) (ctx : MachineContext)
    (err : error).

Definition isBackendCreate (c : Call) : bool :=
  match c with CallGovmomiCreate _ _ => true | _ => false end.

Definition isBackendDelete (c : Call) : bool :=
  match c with CallGovmomiDelete _ => true | _ => false end.

Definition isPatch (c : Call) : bool :=
  match c with CallPatch _ => true | _ => false end.

Definition isEvent (c : Call) : bool :=
  match c with CallEventf _ _ _ _ | CallWarnf _ _ _ _ _ => true | _ => false end.

Definition isFailureEvent (c : Call) : bool :=
  match c with CallWarnf _ _ _ _ _ => true | _ => false end.

Definition isGetControlPlaneMachines (c : Call) : bool :=
  match c with CallGetControlPlaneMachines _ => true | _ => false end.

Definition isGetControlPlaneStatus (c : Call) : bool :=
  match c with CallGetControlPlaneStatus _ => true | _ => false end.

Definition isGetKubeClient (c : Call) : bool :=
  match c with CallGetKubeClientForCluster _ => true | _ => false end.

Definition isNewBootstrap (c : Call) : bool :=
  match c with CallNewBootstrap _ _ => true | _ => false end.

(** Number of calls of a kind in a log. *)
Definition count (p : Call -> bool) (log : list Call) : nat :=
  length (filter p log).

(** ** Function bodies with early return and [defer] *)

Section Body.
Context {W : Type}.

(** What a running function carries: the world and the calls so far. *)
Definition St : Type := W * list Call.

(** A deferred call sees the named result of the function. *)
Definition Deferred (R : Type) : Type := R -> St -> St.

Definition Frame (R : Type) : Type := St * list (Deferred R).

(** A statement either falls through with a value or returns. *)
Inductive Flow (R A : Type) : Type :=
| Next (a : A)
| Returned (r : R).
Arguments Next {R A} a.
Arguments Returned {R A} r.

Definition Body (R A : Type) : Type := Frame R -> Flow R A * Frame R.

Definition ret {R A} (a : A) : Body R A := fun fr => (Next a, fr).

Definition bind {R A B} (m : Body R A) (k : A -> Body R B) : Body R B :=
  fun fr =>
    match m fr with
    | (Next a, fr') => k a fr'
    | (Returned r, fr') => (Returned r, fr')
    end.

(** [return r] *)
Definition return_ {R A} (r : R) : Body R A := fun fr => (Returned r, fr).

(** [defer d]: pushed on the frame, run when the function returns, the
    last deferred first. *)
Definition defer {R} (d : Deferred R) : Body R unit :=
  fun '(s, ds) => (Next tt, (s, d :: ds)).

(** A call of a collaborator: logged, then run on the world. *)
Definition call {R A} (c : Call) (f : W -> A * W) : Body R A :=
  fun '((w, log), ds) =>
    let '(a, w') := f w in (Next a, ((w', log ++ [c]), ds)).

(** The same call as a deferred one. *)
Definition deferred_call (c : Call) (f : W -> W) : St -> St :=
  fun '(w, log) => (f w, log ++ [c]).

(** A call with no effect on the world besides being recorded. *)
Definition emit (c : Call) : St -> St := deferred_call c (fun w => w).

Definition emit_ {R} (c : Call) : Body R unit :=
  fun '(s, ds) => (Next tt, (emit c s, ds)).

Definition run_deferred {R} (r : R) (ds : list (Deferred R)) (s : St) : St :=
  fold_left (fun s d => d r s) ds s.

(** A whole function: its body runs from an empty log, then the deferred
    calls run with the result. *)
Definition func {R} (body : Body R R) (w : W) : R * St :=
  match body ((w, []), []) with
  | (Next r, (s, ds)) | (Returned r, (s, ds)) => (r, run_deferred r ds s)
  end.
End Body.

Arguments Next {R A} a.
Arguments Returned {R A} r.

Declare Scope body_scope.
Delimit Scope body_scope with body.
Notation "x <- m ;; k" := (bind m (fun x => k))
  (at level 100, m at next level, right associativity) : body_scope.
Notation "' p <- m ;; k" := (bind m (fun x => match x with p => k end))
  (at level 100, p pattern, m at next level, right associativity) : body_scope.
Notation "m ;; k" := (bind m (fun _ => k))
  (at level 100, right associativity) : body_scope.
(** [if c { return r }] *)
Notation "'when' c 'return' r ;; k" :=
  (bind (if c then return_ r else ret tt) (fun _ => k))
  (at level 100, c at next level, r at next level, right associativity) : body_scope.
(** [if c { stmt; return r }] *)
Notation "'when' c 'return' r 'after' m ;; k" :=
  (bind (if c then bind m (fun _ => return_ r) else ret tt) (fun _ => k))
  (at level 100, c at next level, r at next level, m at next level,
   right associativity) : body_scope.
(** [if err != nil { return f err }] *)
Notation "'on' err 'return' f ;; k" :=
  (bind (match err with Some e => return_ (f e) | None => ret tt end) (fun _ => k))
  (at level 100, err at next level, f at next level, right associativity) : body_scope.

(** ** The imported packages *)

(** The functions and constants of the packages the actuator imports.
    [context.NewMachineContext], [ctx.GetControlPlaneMachines],
    [kubeclient.GetKubeClientForCluster] and [tokens.NewBootstrap] return
    a value or an error; [kubeclient.GetControlPlaneStatus] returns its
    three results as they are, since the actuator looks at the first
    only. *)
Record Packages (W : Type) := {
  (* package constants *)
  RequeueAfterSeconds : Duration;
  (* package context *)
  ControlPlaneRole : string;
  NewMachineContext : MachineContextParams -> W -> (MachineContext + error) * W;
  Role : MachineContext -> string;
  GetControlPlaneMachines : MachineContext -> W -> (list Machine + error) * W;
  Patch : MachineContext -> W -> W;
  (* package govmomi *)
  govmomi_Create : MachineContext -> string -> W -> option error * W;
  govmomi_Delete : MachineContext -> W -> option error * W;
  govmomi_Update : MachineContext -> W -> option error * W;
  govmomi_Exists : MachineContext -> W -> (bool * option error) * W;
  (* package kubeclient *)
  GetControlPlaneStatus : ClusterContext -> W -> (bool * string * option error) * W;
  GetKubeClientForCluster : ClusterContext -> W -> (KubeClient + error) * W;
  (* package tokens *)
  NewBootstrap : KubeClient -> Duration -> W -> (string + error) * W
}.

Arguments RequeueAfterSeconds {W} _.
Arguments ControlPlaneRole {W} _.
Arguments NewMachineContext {W} _ _ _.
Arguments Role {W} _ _.
Arguments GetControlPlaneMachines {W} _ _ _.
Arguments Patch {W} _ _ _.
Arguments govmomi_Create {W} _ _ _ _.
Arguments govmomi_Delete {W} _ _ _.
Arguments govmomi_Update {W} _ _ _.
Arguments govmomi_Exists {W} _ _ _.
Arguments GetControlPlaneStatus {W} _ _ _.
Arguments GetKubeClientForCluster {W} _ _ _.
Arguments NewBootstrap {W} _ _ _ _.

(** [type Actuator struct] *)
Record Actuator := {
  client : ClusterV1alpha1Interface;
  coreClient : CoreV1Interface
}.

(** [func NewActuator] *)
Definition NewActuator (client : ClusterV1alpha1Interface)
    (coreClient : CoreV1Interface) : Actuator :=
  {| client := client; coreClient := coreClient |}.

(** ** The actuator *)

Section Actuator.
Context {W : Type} (P : Packages W).

Local Open Scope body_scope.

(** [record.Eventf] on success, [record.Warnf] on failure: the deferred
    function of [Create], [Delete] and [Update]. *)
Definition report (ctx : MachineContext) (okReason okFormat failReason failFormat : string)
    : Deferred (W := W) (option error) :=
  fun result =>
    match result with
    | None => emit (CallEventf (MachineOf ctx) okReason okFormat ctx)
    | Some e => emit (CallWarnf (MachineOf ctx) failReason failFormat ctx e)
    end.

(** The [context.MachineContextParams] every entry point builds; only
    [Create] passes a logger, [klogr.New().WithName("[machine-actuator]")]. *)
Definition paramsOf (a : Actuator) (parentCtx : GoContext) (cluster : Cluster)
    (machine : Machine) (logger : option string) : MachineContextParams :=
  {| ParamClusterContext :=
       {| ParamContext := parentCtx;
          ParamCluster := cluster;
          ParamClient := client a;
          ParamCoreClient := coreClient a;
          ParamLogger := logger |};
     ParamMachine := machine |}.

(** The parameters of [Create]. *)
Definition createParams (a : Actuator) (parentCtx : GoContext) (cluster : Cluster)
    (machine : Machine) : MachineContextParams :=
  paramsOf a parentCtx cluster machine (Some "[machine-actuator]").

(** [func (a *Actuator) Create] *)
Definition Create (a : Actuator) (parentCtx : GoContext) (cluster : Cluster)
    (machine : Machine) : W -> option error * St (W := W) :=
  let params := createParams a parentCtx cluster machine in
  func (
    r <- call (CallNewMachineContext params) (NewMachineContext P params) ;;
    match r with
    | inr err => return_ (Some err)
    | inl ctx =>
      defer (report ctx "CreateSuccess" "created machine %q"
                        "CreateFailure" "failed to create machine %q: %v") ;;

      let machineRole := Role P ctx in
      when (machineRole =? "")%string
        return (Some (Errorf "unable to get machine role while creating machine %q" ctx)) ;;

      emit_ (CallLoggerInfo 2 "creating machine" [("role", machineRole)]) ;;
      defer (fun _ => deferred_call (CallPatch ctx) (Patch P ctx)) ;;

      when (negb (HasCertAndKey (CAKeyPair (ClusterConfig (ClusterContextOf ctx)))))
        return (Some (RequeueAfterError (RequeueAfterSeconds P)))
        after (emit_ (CallLoggerInfo 2 "cluster config is missing pki toolchain, requeue machine" [])) ;;

      r <- call (CallGetControlPlaneMachines ctx) (GetControlPlaneMachines P ctx) ;;
      match r with
      | inr err =>
        return_ (Some (Wrapf err "unable to get control plane machines while creating machine %q" ctx))
      | inl controlPlaneMachines =>

        (* Init the control plane by creating this machine. *)
        if (machineRole =? ControlPlaneRole P)%string
           && (length controlPlaneMachines =? 1)%nat
        then
          err <- call (CallGovmomiCreate ctx "") (govmomi_Create P ctx "") ;;
          on err return (fun err => Some (Wrapf err
            "failed to create machine as initial member of the control plane %q" ctx)) ;;
          return_ None
        else

        (* Join the existing cluster. *)
        '(online, _, _) <- call (CallGetControlPlaneStatus (ClusterContextOf ctx))
                               (GetControlPlaneStatus P (ClusterContextOf ctx)) ;;
        when (negb online)
          return (Some (RequeueAfterError (time.Minute * 1)%Z))
          after (emit_ (CallLoggerInfo 2 "unable to join machine to control plane until it is online" [])) ;;

        (* Get a Kubernetes client for the cluster. *)
        r <- call (CallGetKubeClientForCluster (ClusterContextOf ctx))
                  (GetKubeClientForCluster P (ClusterContextOf ctx)) ;;
        match r with
        | inr err =>
          return_ (Some (Wrapf err "failed to get kubeclient while creating machine %q" ctx))
        | inl kubeClient =>

          (* Get a new bootstrap token used to join this machine to the cluster. *)
          r <- call (CallNewBootstrap kubeClient defaultTokenTTL)
                    (NewBootstrap P kubeClient defaultTokenTTL) ;;
          match r with
          | inr err =>
            return_ (Some (Wrapf err
              "unable to generate boostrap token for joining machine to cluster %q" ctx))
          | inl token =>

            (* Create the machine and join it to the cluster. *)
            err <- call (CallGovmomiCreate ctx token) (govmomi_Create P ctx token) ;;
            on err return (fun err => Some (Wrapf err
              "failed to create machine and join it to the cluster %q" ctx)) ;;

            return_ None
          end
        end
      end
    end).

(** [func (a *Actuator) Delete] *)
Definition Delete (a : Actuator) (parentCtx : GoContext) (cluster : Cluster)
    (machine : Machine) : W -> option error * St (W := W) :=
  let params := paramsOf a parentCtx cluster machine None in
  func (
    r <- call (CallNewMachineContext params) (NewMachineContext P params) ;;
    match r with
    | inr err => return_ (Some err)
    | inl ctx =>
      defer (report ctx "DeleteSuccess" "deleted machine %q"
                        "DeleteFailure" "failed to delete machine %q: %v") ;;

      emit_ (CallLoggerInfo 2 "deleting machine" []) ;;
      defer (fun _ => deferred_call (CallPatch ctx) (Patch P ctx)) ;;

      result <- call (CallGovmomiDelete ctx) (govmomi_Delete P ctx) ;;
      return_ result
    end).

(** [func (a *Actuator) Update] *)
Definition Update (a : Actuator) (parentCtx : GoContext) (cluster : Cluster)
    (machine : Machine) : W -> option error * St (W := W) :=
  let params := paramsOf a parentCtx cluster machine None in
  func (
    r <- call (CallNewMachineContext params) (NewMachineContext P params) ;;
    match r with
    | inr err => return_ (Some err)
    | inl ctx =>
      defer (report ctx "UpdateSuccess" "updated machine %q"
                        "UpdateFailure" "failed to update machine %q: %v") ;;

      emit_ (CallLoggerInfo 2 "updating machine" []) ;;
      defer (fun _ => deferred_call (CallPatch ctx) (Patch P ctx)) ;;

      result <- call (CallGovmomiUpdate ctx) (govmomi_Update P ctx) ;;
      return_ result
    end).

(** [func (a *Actuator) Exists] *)
Definition Exists (a : Actuator) (parentCtx : GoContext) (cluster : Cluster)
    (machine : Machine) : W -> (bool * option error) * St (W := W) :=
  let params := paramsOf a parentCtx cluster machine None in
  func (
    r <- call (CallNewMachineContext params) (NewMachineContext P params) ;;
    match r with
    | inr err => return_ (false, Some err)
    | inl ctx =>
      result <- call (CallGovmomiExists ctx) (govmomi_Exists P ctx) ;;
      return_ result
    end).

End Actuator.

(** The result and the log of calls of one invocation. *)
Definition resultOf {W R} (o : R * St (W := W)) : R := fst o.
Definition callsOf {W R} (o : R * St (W := W)) : list Call := snd (snd o).
Definition worldOf {W R} (o : R * St (W := W)) : W := fst (snd o).


(** ** Vocabulary of the properties *)

(** The outcome event of [Create] for a result: what the deferred
    function records. *)
Definition createEvent (ctx : MachineContext) (result : option error) : Call :=
  match result with
  | None => CallEventf (MachineOf ctx) "CreateSuccess" "created machine %q" ctx
  | Some e =>
    CallWarnf (MachineOf ctx) "CreateFailure" "failed to create machine %q: %v" ctx e
  end.

(** [err != nil] wrapped with [errors.Wrapf], nil kept. *)
Definition wrapped (r : option error) (format : string) (ctx : MachineContext)
    : option error :=
  match r with
  | None => None
  | Some e => Some (Wrapf e format ctx)
  end.

(** The calls every [Create] that passes the role check starts with. *)
Definition createPrologue (a : Actuator) (parentCtx : GoContext) (cluster : Cluster)
    (machine : Machine) (role : string) : list Call :=
  [ CallNewMachineContext (createParams a parentCtx cluster machine);
    CallLoggerInfo 2 "creating machine" [("role", role)] ].

(** Did the invocation return an error (of any kind)? *)
Definition failed (result : option error) : bool :=
  match result with
  | Some _ => true
  | None => false
  end.

(** The machine is not the sole initializer of the control plane: the
    negation of the condition of the bootstrap branch. *)
Definition mustJoin {W} (P : Packages W) (ctx : MachineContext) (controlPlaneMachines : list Machine)
    : Prop :=
  Role P ctx <> ControlPlaneRole P \/ length controlPlaneMachines <> 1.

(** The outcome event of [Delete]. *)
Definition deleteEvent (ctx : MachineContext) (result : option error) : Call :=
  match result with
  | None => CallEventf (MachineOf ctx) "DeleteSuccess" "deleted machine %q" ctx
  | Some e =>
    CallWarnf (MachineOf ctx) "DeleteFailure" "failed to delete machine %q: %v" ctx e
  end.

(** The outcome event of [Update]. *)
Definition updateEvent (ctx : MachineContext) (result : option error) : Call :=
  match result with
  | None => CallEventf (MachineOf ctx) "UpdateSuccess" "updated machine %q" ctx
  | Some e =>
    CallWarnf (MachineOf ctx) "UpdateFailure" "failed to update machine %q: %v" ctx e
  end.

(** The packages with another [kubeclient.GetControlPlaneStatus]. *)
Definition withStatusProbe {W} (P : Packages W)
    (probe : ClusterContext -> W -> (bool * string * option error) * W)
    : Packages W :=
  {| RequeueAfterSeconds := RequeueAfterSeconds P;
     ControlPlaneRole := ControlPlaneRole P;
     NewMachineContext := NewMachineContext P;
     Role := Role P;
     GetControlPlaneMachines := GetControlPlaneMachines P;
     Patch := Patch P;
     govmomi_Create := govmomi_Create P;
     govmomi_Delete := govmomi_Delete P;
     govmomi_Update := govmomi_Update P;
     govmomi_Exists := govmomi_Exists P;
     GetControlPlaneStatus := probe;
     GetKubeClientForCluster := GetKubeClientForCluster P;
     NewBootstrap := NewBootstrap P |}.

(** The first result of the probe, and the world it leaves. *)
Definition onlineOf {W} (r : (bool * string * option error) * W) : bool :=
  fst (fst (fst r)).

Definition sameOnline {W}
    (probe1 probe2 : ClusterContext -> W -> (bool * string * option error) * W)
    : Prop :=
  forall ctx w,
    onlineOf (probe1 ctx w) = onlineOf (probe2 ctx w)
    /\ snd (probe1 ctx w) = snd (probe2 ctx w).

(** ** A concrete world

    The world is a counter of the calls that reached it; the collaborators
    answer from a fixed script.  Used to run the actuator on concrete
    inputs. *)
Module Sample.

Record Script := {
  sContext : MachineContext + error;
  sRole : string;
  sMachines : list Machine + error;
  sStatus : bool * string * option error;
  sClient : KubeClient + error;
  sToken : string + error;
  sBackend : option error;
  sExists : bool * option error
}.

Definition tick {A} (a : A) (w : nat) : A * nat := (a, S w).

Definition packages (s : Script) : Packages nat :=
  {| RequeueAfterSeconds := (20 * time.Second)%Z;
     ControlPlaneRole := "controlplane";
     NewMachineContext := fun _ => tick (sContext s);
     Role := fun _ => sRole s;
     GetControlPlaneMachines := fun _ => tick (sMachines s);
     Patch := fun _ w => S w;
     govmomi_Create := fun _ _ => tick (sBackend s);
     govmomi_Delete := fun _ => tick (sBackend s);
     govmomi_Update := fun _ => tick (sBackend s);
     govmomi_Exists := fun _ => tick (sExists s);
     GetControlPlaneStatus := fun _ => tick (sStatus s);
     GetKubeClientForCluster := fun _ => tick (sClient s);
     NewBootstrap := fun _ _ => tick (sToken s) |}.

Definition cluster : Cluster :=
  {| ClusterNamespace := "default"; ClusterName := "c1" |}.
Definition machine : Machine :=
  {| MachineNamespace := "default"; MachineName := "m1" |}.
Definition other : Machine :=
  {| MachineNamespace := "default"; MachineName := "m0" |}.
Definition actuator : Actuator := NewActuator 1 2.

Definition fullPair : KeyPair := {| Cert := [48; 130]; Key := [48; 129] |}.
Definition noCert : KeyPair := {| Cert := []; Key := [48; 129] |}.

Definition ctxWith (kp : KeyPair) : MachineContext :=
  {| ClusterContextOf :=
       {| CtxCluster := cluster; ClusterConfig := {| CAKeyPair := kp |} |};
     MachineOf := machine |}.

(** A worker joining an online control plane; every collaborator succeeds. *)
Definition joining : Script :=
  {| sContext := inl (ctxWith fullPair);
     sRole := "node";
     sMachines := inl [other];
     sStatus := (true, "", None);
     sClient := inl 7;
     sToken := inl "abcdef.0123456789abcdef";
     sBackend := None;
     sExists := (true, None) |}.

(** The first control-plane machine of a cluster: the membership query
    reports this machine only.  The collaborators of the join path fail,
    should they be called. *)
Definition bootstrapping : Script :=
  {| sContext := inl (ctxWith fullPair);
     sRole := "controlplane";
     sMachines := inl [machine];
     sStatus := (false, "not called", Some (Opaque "not called"));
     sClient := inr (Opaque "not called");
     sToken := inr (Opaque "not called");
     sBackend := None;
     sExists := (false, None) |}.

(** A worker, with the control plane not answering yet. *)
Definition offline : Script :=
  {| sContext := inl (ctxWith fullPair);
     sRole := "node";
     sMachines := inl [other];
     sStatus := (false, "connection refused",
                 Some (Opaque "dial tcp 10.0.0.5:6443: connection refused"));
     sClient := inl 7;
     sToken := inl "abcdef.0123456789abcdef";
     sBackend := None;
     sExists := (false, None) |}.

(** A worker of a cluster whose CA key pair has no certificate yet. *)
Definition missingCert : Script :=
  {| sContext := inl (ctxWith noCert);
     sRole := "node";
     sMachines := inl [other];
     sStatus := (true, "", None);
     sClient := inl 7;
     sToken := inl "abcdef.0123456789abcdef";
     sBackend := None;
     sExists := (false, None) |}.

(** A machine with no role, in a cluster with no certificate either. *)
Definition noRole : Script :=
  {| sContext := inl (ctxWith noCert);
     sRole := "";
     sMachines := inl [other];
     sStatus := (true, "", None);
     sClient := inl 7;
     sToken := inl "abcdef.0123456789abcdef";
     sBackend := None;
     sExists := (false, None) |}.

(** The context cannot be built. *)
Definition noContext : Script :=
  {| sContext := inr (Opaque "cluster provider config is invalid");
     sRole := "node";
     sMachines := inl [other];
     sStatus := (true, "", None);
     sClient := inl 7;
     sToken := inl "abcdef.0123456789abcdef";
     sBackend := None;
     sExists := (false, None) |}.

(** A control-plane machine, with two of them known and none online, whose
    backend refuses to delete. *)
Definition stuck : Script :=
  {| sContext := inl (ctxWith fullPair);
     sRole := "controlplane";
     sMachines := inl [other; machine];
     sStatus := (false, "", None);
     sClient := inl 7;
     sToken := inl "abcdef.0123456789abcdef";
     sBackend := Some (Opaque "vm is locked by another task");
     sExists := (true, None) |}.

(** Two status probes that agree on [online] and on nothing else. *)
Definition quietProbe (_ : ClusterContext) : nat -> (bool * string * option error) * nat :=
  tick (true, "", None).
Definition noisyProbe (_ : ClusterContext) : nat -> (bool * string * option error) * nat :=
  tick (true, "healthz answered late", Some (Opaque "context deadline exceeded")).

End Sample.

(** ** Vocabulary of the further properties *)

(** The five formats [Create] wraps a collaborator's error with. *)
Definition createWrapFormats : list string :=
  [ "unable to get control plane machines while creating machine %q";
    "failed to create machine as initial member of the control plane %q";
    "failed to get kubeclient while creating machine %q";
    "unable to generate boostrap token for joining machine to cluster %q";
    "failed to create machine and join it to the cluster %q" ].

(** The errors [Create] makes itself for the context [ctx]: the role
    error, a wrapped collaborator error, or a requeue after one of the two
    delays. *)
Definition madeByCreate {W} (P : Packages W) (ctx : MachineContext)
    (e : error) : Prop :=
  match e with
  | Opaque _ => False
  | Errorf format ctx' =>
    format = "unable to get machine role while creating machine %q" /\ ctx' = ctx
  | Wrapf _ format ctx' => In format createWrapFormats /\ ctx' = ctx
  | RequeueAfterError d => d = RequeueAfterSeconds P \/ d = time.Minute
  end.

(** Two sets of packages that agree on what [Delete] calls. *)
Definition sameForDelete {W} (P1 P2 : Packages W) : Prop :=
  (forall params w, NewMachineContext P1 params w = NewMachineContext P2 params w)
  /\ (forall ctx w, govmomi_Delete P1 ctx w = govmomi_Delete P2 ctx w)
  /\ (forall ctx w, Patch P1 ctx w = Patch P2 ctx w).

(** Two sets of packages that agree on what [Exists] calls. *)
Definition sameForExists {W} (P1 P2 : Packages W) : Prop :=
  (forall params w, NewMachineContext P1 params w = NewMachineContext P2 params w)
  /\ (forall ctx w, govmomi_Exists P1 ctx w = govmomi_Exists P2 ctx w).

(** Further scripts for the sample world. *)
Module Scenarios.
Import Sample.

(** A worker whose membership query fails. *)
Definition membershipDown : Script :=
  {| sContext := inl (ctxWith fullPair);
     sRole := "node";
     sMachines := inr (Opaque "the server is currently unable to handle the request");
     sStatus := (true, "", None);
     sClient := inl 7;
     sToken := inl "abcdef.0123456789abcdef";
     sBackend := None;
     sExists := (false, None) |}.

(** The machine of [stuck] seen as a worker of an online control plane
    with one other machine: the same context and the same backend, another
    role, membership, status, client and token. *)
Definition stuckWorker : Script :=
  {| sContext := inl (ctxWith fullPair);
     sRole := "node";
     sMachines := inl [other];
     sStatus := (true, "ok", None);
     sClient := inr (Opaque "no kubeconfig");
     sToken := inr (Opaque "forbidden");
     sBackend := Some (Opaque "vm is locked by another task");
     sExists := (true, None) |}.

End Scenarios.

(** ** Proof steps *)

Ltac unfold_actuator :=
  unfold Create, Delete, Update, Exists, func, bind, call, emit_, defer,
    return_, ret, resultOf, callsOf, worldOf.

#[local] Arguments defaultTokenTTL : simpl never.
#[local] Arguments time.Minute : simpl never.

Ltac step H := rewrite H; cbn.

(** Every collaborator [Create] may call, answered one after the other. *)
Ltac answer :=
  match goal with
  | |- context [GetControlPlaneMachines ?P ?c ?w] =>
    destruct (GetControlPlaneMachines P c w) as [[?|?] ?]
  | |- context [govmomi_Create ?P ?c ?t ?w] =>
    destruct (govmomi_Create P c t w) as [[?|] ?]
  | |- context [GetControlPlaneStatus ?P ?c ?w] =>
    destruct (GetControlPlaneStatus P c w) as [[[[|] ?] ?] ?]
  | |- context [GetKubeClientForCluster ?P ?c ?w] =>
    destruct (GetKubeClientForCluster P c w) as [[?|?] ?]
  | |- context [NewBootstrap ?P ?c ?t ?w] =>
    destruct (NewBootstrap P c t w) as [[?|?] ?]
  | |- context [if ?b then _ else _] => destruct b eqn:?
  end.

Ltac all_paths := repeat (cbn; answer); cbn.

(** ** Properties of [Create] *)

(** The key pair test fails exactly when the certificate or the key is
    empty. *)
Lemma HasCertAndKey_false (kp : KeyPair) :
  HasCertAndKey kp = false <-> Cert kp = [] \/ Key kp = [].
Proof.
  unfold HasCertAndKey. destruct kp as [[|c cs] [|k ks]]; cbn; split;
    intros H; auto; try discriminate; destruct H; discriminate.
Qed.

Section CreateProperties.
Context {W : Type} (P : Packages W).
Variables (a : Actuator) (parentCtx : GoContext) (cluster : Cluster)
  (machine : Machine).

Local Abbreviation params := (createParams a parentCtx cluster machine).
Local Abbreviation prologue := (createPrologue a parentCtx cluster machine).
Local Abbreviation caKeyPair ctx := (CAKeyPair (ClusterConfig (ClusterContextOf ctx))).

(** C1. A control-plane machine that is the only control-plane machine the
    membership query reports is created in bootstrap mode: the backend is
    called once, with the empty token; the result is the backend's, nil or
    wrapped; no bootstrap token is issued and the control plane's status
    is not asked for. *)
Theorem Create_bootstrap_branch :
  forall (w0 w1 w2 w3 : W) (ctx : MachineContext)
         (controlPlaneMachines : list Machine) (backend : option error),
    NewMachineContext P params w0 = (inl ctx, w1) ->
    Role P ctx <> "" ->
    HasCertAndKey (caKeyPair ctx) = true ->
    GetControlPlaneMachines P ctx w1 = (inl controlPlaneMachines, w2) ->
    Role P ctx = ControlPlaneRole P ->
    length controlPlaneMachines = 1 ->
    govmomi_Create P ctx "" w2 = (backend, w3) ->
    let o := Create P a parentCtx cluster machine w0 in
    let result := wrapped backend
      "failed to create machine as initial member of the control plane %q" ctx in
    resultOf o = result
    /\ callsOf o =
         prologue (Role P ctx)
         ++ [ CallGetControlPlaneMachines ctx;
              CallGovmomiCreate ctx "";
              CallPatch ctx;
              createEvent ctx result ]
    /\ count isBackendCreate (callsOf o) = 1
    /\ count isNewBootstrap (callsOf o) = 0
    /\ count isGetControlPlaneStatus (callsOf o) = 0.
Proof.
  intros w0 w1 w2 w3 ctx ms backend Hctx Hrole Hca Hms Hcp Hlen Hbackend o result.
  subst o result. unfold_actuator.
  apply String.eqb_neq in Hrole. apply String.eqb_eq in Hcp.
  step Hctx. step Hrole. step Hca. step Hms. step Hcp. step Hlen. step Hbackend.
  destruct backend as [e|]; cbn; repeat split; reflexivity.
Qed.

Lemma mustJoin_test ctx ms :
  mustJoin P ctx ms ->
  ((Role P ctx =? ControlPlaneRole P)%string && (length ms =? 1)%nat) = false.
Proof.
  intros [H | H].
  - apply String.eqb_neq in H. now rewrite H.
  - apply Nat.eqb_neq in H. rewrite H. apply andb_false_r.
Qed.

(** C2. On the join path with the control plane reported offline, [Create]
    returns a requeue after one minute; no client of the cluster is asked
    for, no bootstrap token is issued and the backend is not called. *)
Theorem Create_join_offline :
  forall (w0 w1 w2 w3 : W) (ctx : MachineContext)
         (controlPlaneMachines : list Machine) (detail : string)
         (probeErr : option error),
    NewMachineContext P params w0 = (inl ctx, w1) ->
    Role P ctx <> "" ->
    HasCertAndKey (caKeyPair ctx) = true ->
    GetControlPlaneMachines P ctx w1 = (inl controlPlaneMachines, w2) ->
    mustJoin P ctx controlPlaneMachines ->
    GetControlPlaneStatus P (ClusterContextOf ctx) w2
      = ((false, detail, probeErr), w3) ->
    let o := Create P a parentCtx cluster machine w0 in
    let result := Some (RequeueAfterError time.Minute) in
    resultOf o = result
    /\ time.Minute = (60 * 1000000000)%Z
    /\ callsOf o =
         prologue (Role P ctx)
         ++ [ CallGetControlPlaneMachines ctx;
              CallGetControlPlaneStatus (ClusterContextOf ctx);
              CallLoggerInfo 2
                "unable to join machine to control plane until it is online" [];
              CallPatch ctx;
              createEvent ctx result ]
    /\ count isGetKubeClient (callsOf o) = 0
    /\ count isNewBootstrap (callsOf o) = 0
    /\ count isBackendCreate (callsOf o) = 0.
Proof.
  intros w0 w1 w2 w3 ctx ms detail probeErr Hctx Hrole Hca Hms Hjoin Hprobe o result.
  subst o result. unfold_actuator.
  apply String.eqb_neq in Hrole. apply mustJoin_test in Hjoin.
  step Hctx. step Hrole. step Hca. step Hms. step Hjoin. step Hprobe.
  repeat split; reflexivity.
Qed.

(** C3. On the join path with the control plane online, [Create] asks for
    a client of the cluster, issues a bootstrap token with the default TTL
    of ten minutes and calls the backend with that very token.  A failure
    of any of the three steps ends the invocation there, and is returned
    wrapped. *)
Theorem Create_join_online :
  forall (w0 w1 w2 w3 : W) (ctx : MachineContext)
         (controlPlaneMachines : list Machine) (detail : string)
         (probeErr : option error),
    NewMachineContext P params w0 = (inl ctx, w1) ->
    Role P ctx <> "" ->
    HasCertAndKey (caKeyPair ctx) = true ->
    GetControlPlaneMachines P ctx w1 = (inl controlPlaneMachines, w2) ->
    mustJoin P ctx controlPlaneMachines ->
    GetControlPlaneStatus P (ClusterContextOf ctx) w2
      = ((true, detail, probeErr), w3) ->
    let o := Create P a parentCtx cluster machine w0 in
    let pre :=
      prologue (Role P ctx)
      ++ [ CallGetControlPlaneMachines ctx;
           CallGetControlPlaneStatus (ClusterContextOf ctx);
           CallGetKubeClientForCluster (ClusterContextOf ctx) ] in
    defaultTokenTTL = (10 * 60 * 1000000000)%Z
    /\ match GetKubeClientForCluster P (ClusterContextOf ctx) w3 with
       | (inr err, _) =>
         let result :=
           Some (Wrapf err "failed to get kubeclient while creating machine %q" ctx) in
         resultOf o = result
         /\ callsOf o = pre ++ [ CallPatch ctx; createEvent ctx result ]
       | (inl kubeClient, w4) =>
         match NewBootstrap P kubeClient defaultTokenTTL w4 with
         | (inr err, _) =>
           let result :=
             Some (Wrapf err
               "unable to generate boostrap token for joining machine to cluster %q"
               ctx) in
           resultOf o = result
           /\ callsOf o =
                pre ++ [ CallNewBootstrap kubeClient defaultTokenTTL;
                         CallPatch ctx; createEvent ctx result ]
         | (inl token, w5) =>
           let result :=
             wrapped (fst (govmomi_Create P ctx token w5))
               "failed to create machine and join it to the cluster %q" ctx in
           resultOf o = result
           /\ callsOf o =
                pre ++ [ CallNewBootstrap kubeClient defaultTokenTTL;
                         CallGovmomiCreate ctx token;
                         CallPatch ctx; createEvent ctx result ]
         end
       end.
Proof.
  intros w0 w1 w2 w3 ctx ms detail probeErr Hctx Hrole Hca Hms Hjoin Hprobe o pre.
  subst o pre. unfold_actuator.
  apply String.eqb_neq in Hrole. apply mustJoin_test in Hjoin.
  step Hctx. step Hrole. step Hca. step Hms. step Hjoin. step Hprobe.
  split; [reflexivity|].
  destruct (GetKubeClientForCluster P (ClusterContextOf ctx) w3)
    as [[kubeClient | err] w4]; cbn; [|split; reflexivity].
  destruct (NewBootstrap P kubeClient defaultTokenTTL w4)
    as [[tok | err] w5]; cbn; [|split; reflexivity].
  destruct (govmomi_Create P ctx tok w5) as [[err|] w6]; cbn; split; reflexivity.
Qed.

(** C4. With the CA key pair of the cluster not fully populated (the
    certificate or the private key is missing), [Create] returns a requeue
    after the fixed interval [RequeueAfterSeconds] and does not call the
    backend. *)
Theorem Create_missing_ca_key_pair :
  forall (w0 w1 : W) (ctx : MachineContext),
    NewMachineContext P params w0 = (inl ctx, w1) ->
    Role P ctx <> "" ->
    Cert (caKeyPair ctx) = [] \/ Key (caKeyPair ctx) = [] ->
    let o := Create P a parentCtx cluster machine w0 in
    let result := Some (RequeueAfterError (RequeueAfterSeconds P)) in
    resultOf o = result
    /\ isRequeueAfter (resultOf o) = true
    /\ callsOf o =
         prologue (Role P ctx)
         ++ [ CallLoggerInfo 2
                "cluster config is missing pki toolchain, requeue machine" [];
              CallPatch ctx;
              createEvent ctx result ]
    /\ count isBackendCreate (callsOf o) = 0.
Proof.
  intros w0 w1 ctx Hctx Hrole Hca o result.
  subst o result. unfold_actuator.
  apply String.eqb_neq in Hrole. apply HasCertAndKey_false in Hca.
  step Hctx. step Hrole. step Hca.
  repeat split; reflexivity.
Qed.

(** C5. With a role that does not resolve (the empty role), [Create]
    returns a configuration error, which is not a requeue, and calls
    neither the backend nor the membership query.  Nothing is assumed of
    the CA key pair: the role is checked first. *)
Theorem Create_unresolved_role :
  forall (w0 w1 : W) (ctx : MachineContext),
    NewMachineContext P params w0 = (inl ctx, w1) ->
    Role P ctx = "" ->
    let o := Create P a parentCtx cluster machine w0 in
    let result :=
      Some (Errorf "unable to get machine role while creating machine %q" ctx) in
    resultOf o = result
    /\ isRequeueAfter (resultOf o) = false
    /\ callsOf o = [ CallNewMachineContext params; createEvent ctx result ]
    /\ count isBackendCreate (callsOf o) = 0
    /\ count isGetControlPlaneMachines (callsOf o) = 0.
Proof.
  intros w0 w1 ctx Hctx Hrole o result.
  subst o result. unfold_actuator.
  step Hctx. step Hrole.
  repeat split; reflexivity.
Qed.

(** C6, as the code has it.  Once the context is built, [Create] records
    exactly one event, whatever the result: [CreateSuccess] for nil and the
    warning [CreateFailure] for every error, a requeue included.  When the
    context cannot be built the error is returned with no event at all. *)
Theorem Create_records_one_event :
  forall (w0 : W),
    let o := Create P a parentCtx cluster machine w0 in
    match NewMachineContext P params w0 with
    | (inr err, _) =>
      resultOf o = Some err /\ count isEvent (callsOf o) = 0
    | (inl ctx, _) =>
      count isEvent (callsOf o) = 1
      /\ last (callsOf o) (CallPatch ctx) = createEvent ctx (resultOf o)
      /\ count isFailureEvent (callsOf o) = (if failed (resultOf o) then 1 else 0)
    end.
Proof.
  intros w0 o. subst o. unfold_actuator.
  destruct (NewMachineContext P params w0) as [[ctx | err] w1]; cbn;
    [| split; reflexivity].
  all_paths; repeat split; reflexivity.
Qed.

(** C7, as the code has it.  Once the context is built and the role is not
    empty, whatever branch is taken and whatever the result, the context
    is patched exactly once, and the last two calls are that patch and then
    the one outcome event.  With the empty role [Create] returns before
    the patch is deferred: the failure event is recorded and nothing is
    patched. *)
Theorem Create_patches_then_reports :
  forall (w0 : W),
    let o := Create P a parentCtx cluster machine w0 in
    match NewMachineContext P params w0 with
    | (inr err, _) => callsOf o = [ CallNewMachineContext params ]
    | (inl ctx, _) =>
      if (Role P ctx =? "")%string
      then callsOf o = [ CallNewMachineContext params; createEvent ctx (resultOf o) ]
      else exists before : list Call,
        callsOf o = before ++ [ CallPatch ctx; createEvent ctx (resultOf o) ]
        /\ count isPatch before = 0
        /\ count isEvent before = 0
    end.
Proof.
  intros w0 o. subst o. unfold_actuator.
  destruct (NewMachineContext P params w0) as [[ctx | err] w1]; cbn;
    [| reflexivity].
  destruct (Role P ctx =? "")%string eqn:Hrole; cbn; [reflexivity|].
  all_paths;
    match goal with
    | |- exists before, ?l = _ /\ _ => exists (firstn (length l - 2) l)
    end; repeat split; reflexivity.
Qed.

End CreateProperties.

(** ** The status probe and [Create] *)

Section StatusProbe.
Context {W : Type} (P : Packages W).
Variables (a : Actuator) (parentCtx : GoContext) (cluster : Cluster)
  (machine : Machine).

(** C10. [Create] reads the first result of the status probe only.  Two
    probes that agree on it (and on the world they leave) give the same
    result, the same calls and the same world, whatever detail and error
    each returns; so the error of the probe never reaches the result. *)
Theorem Create_reads_online_only :
  forall (probe1 probe2 :
            ClusterContext -> W -> (bool * string * option error) * W)
         (w0 : W),
    sameOnline probe1 probe2 ->
    Create (withStatusProbe P probe1) a parentCtx cluster machine w0
    = Create (withStatusProbe P probe2) a parentCtx cluster machine w0.
Proof.
  intros probe1 probe2 w0 Hsame. unfold_actuator. cbn.
  destruct (NewMachineContext P (createParams a parentCtx cluster machine) w0)
    as [[ctx | err] w1]; cbn; [| reflexivity].
  destruct (Role P ctx =? "")%string; cbn; [reflexivity|].
  destruct (HasCertAndKey (CAKeyPair (ClusterConfig (ClusterContextOf ctx))));
    cbn; [| reflexivity].
  destruct (GetControlPlaneMachines P ctx w1) as [[ms | err] w2]; cbn;
    [| reflexivity].
  destruct ((Role P ctx =? ControlPlaneRole P)%string && (length ms =? 1)%nat);
    cbn; [reflexivity|].
  destruct (Hsame (ClusterContextOf ctx) w2) as [Honline Hworld].
  destruct (probe1 (ClusterContextOf ctx) w2) as [[[online1 detail1] err1] w3].
  destruct (probe2 (ClusterContextOf ctx) w2) as [[[online2 detail2] err2] w3'].
  cbn in Honline, Hworld. subst online2 w3'. reflexivity.
Qed.

End StatusProbe.

(** ** Properties of [Delete] and [Exists] *)

Section DeleteExistsProperties.
Context {W : Type} (P : Packages W).
Variables (a : Actuator) (parentCtx : GoContext) (cluster : Cluster)
  (machine : Machine).

Local Abbreviation params := (paramsOf a parentCtx cluster machine None).

(** C8. Once its context is built, [Delete] calls the backend's delete
    exactly once and returns what it returned, as it is.  No role, no
    membership count and no status of the control plane is looked at:
    neither query is called, and nothing is assumed of the role. *)
Theorem Delete_destroys_once :
  forall (w0 w1 w2 : W) (ctx : MachineContext) (backend : option error),
    NewMachineContext P params w0 = (inl ctx, w1) ->
    govmomi_Delete P ctx w1 = (backend, w2) ->
    let o := Delete P a parentCtx cluster machine w0 in
    resultOf o = backend
    /\ callsOf o =
         [ CallNewMachineContext params;
           CallLoggerInfo 2 "deleting machine" [];
           CallGovmomiDelete ctx;
           CallPatch ctx;
           deleteEvent ctx backend ]
    /\ count isBackendDelete (callsOf o) = 1
    /\ count isGetControlPlaneMachines (callsOf o) = 0
    /\ count isGetControlPlaneStatus (callsOf o) = 0.
Proof.
  intros w0 w1 w2 ctx backend Hctx Hbackend o. subst o. unfold_actuator.
  step Hctx. step Hbackend.
  destruct backend; cbn; repeat split; reflexivity.
Qed.

(** C9. [Exists] neither patches the context nor records an event, and
    the world is touched by the context builder and the backend's query
    only.  It returns [false] with the builder's error, or else the two
    results of the backend as they are. *)
Theorem Exists_is_a_query :
  forall (w0 : W),
    let o := Exists P a parentCtx cluster machine w0 in
    count isPatch (callsOf o) = 0
    /\ count isEvent (callsOf o) = 0
    /\ match NewMachineContext P params w0 with
       | (inr err, w1) =>
         resultOf o = (false, Some err)
         /\ worldOf o = w1
         /\ callsOf o = [ CallNewMachineContext params ]
       | (inl ctx, w1) =>
         resultOf o = fst (govmomi_Exists P ctx w1)
         /\ worldOf o = snd (govmomi_Exists P ctx w1)
         /\ callsOf o = [ CallNewMachineContext params; CallGovmomiExists ctx ]
       end.
Proof.
  intros w0 o. subst o. unfold_actuator. cbn.
  destruct (NewMachineContext P params w0) as [[ctx | err] w1]; cbn.
  - destruct (govmomi_Exists P ctx w1) as [[ok err] w2]; cbn.
    repeat split; reflexivity.
  - repeat split; reflexivity.
Qed.

(** [Update] is [Delete] with the backend's update: once the context is
    built, whatever the backend answers, it is called once, its result is
    returned as it is, and the patch and then the outcome event follow;
    when the context cannot be built the error is returned and nothing
    else is called. *)
Theorem Update_reconciles_once :
  forall (w0 : W),
    let o := Update P a parentCtx cluster machine w0 in
    match NewMachineContext P params w0 with
    | (inr err, _) =>
      resultOf o = Some err /\ callsOf o = [ CallNewMachineContext params ]
    | (inl ctx, w1) =>
      resultOf o = fst (govmomi_Update P ctx w1)
      /\ callsOf o =
           [ CallNewMachineContext params;
             CallLoggerInfo 2 "updating machine" [];
             CallGovmomiUpdate ctx;
             CallPatch ctx;
             updateEvent ctx (resultOf o) ]
    end.
Proof.
  intros w0 o. subst o. unfold_actuator. cbn.
  destruct (NewMachineContext P params w0) as [[ctx | err] w1]; cbn.
  - destruct (govmomi_Update P ctx w1) as [[err|] w2]; cbn; split; reflexivity.
  - split; reflexivity.
Qed.

End DeleteExistsProperties.

(** ** The actuator on the sample world *)

Section Runs.
Import Sample.

Local Abbreviation run s := (Create (packages s) actuator 0 cluster machine 0).

(** [Create_bootstrap_branch] on the first control-plane machine. *)
Lemma Create_bootstrap_branch_run :
  resultOf (run bootstrapping) = None
  /\ count isBackendCreate (callsOf (run bootstrapping)) = 1
  /\ count isNewBootstrap (callsOf (run bootstrapping)) = 0
  /\ count isGetControlPlaneStatus (callsOf (run bootstrapping)) = 0.
Proof.
  assert (H := Create_bootstrap_branch (packages bootstrapping) actuator 0
                 cluster machine 0 1 2 3 (ctxWith fullPair) [machine] None
                 eq_refl ltac:(vm_compute; discriminate) eq_refl eq_refl
                 eq_refl eq_refl eq_refl).
  cbv zeta in H. destruct H as (Hr & _ & Hb & Ht & Hs).
  exact (conj Hr (conj Hb (conj Ht Hs))).
Defined.

(** [Create_join_offline] on a worker whose control plane is offline. *)
Lemma Create_join_offline_run :
  resultOf (run offline) = Some (RequeueAfterError 60000000000%Z)
  /\ count isGetKubeClient (callsOf (run offline)) = 0
  /\ count isNewBootstrap (callsOf (run offline)) = 0
  /\ count isBackendCreate (callsOf (run offline)) = 0.
Proof.
  assert (H := Create_join_offline (packages offline) actuator 0
                 cluster machine 0 1 2 3 (ctxWith fullPair) [other]
                 "connection refused"
                 (Some (Opaque "dial tcp 10.0.0.5:6443: connection refused"))
                 eq_refl ltac:(vm_compute; discriminate) eq_refl eq_refl
                 ltac:(left; vm_compute; discriminate) eq_refl).
  cbv zeta in H. destruct H as (Hr & _ & _ & Hk & Ht & Hb).
  exact (conj Hr (conj Hk (conj Ht Hb))).
Defined.

(** [Create_join_online] on a worker joining an online control plane. *)
Lemma Create_join_online_run :
  defaultTokenTTL = 600000000000%Z
  /\ resultOf (run joining) = None
  /\ callsOf (run joining) =
       [ CallNewMachineContext (createParams actuator 0 cluster machine);
         CallLoggerInfo 2 "creating machine" [("role", "node")];
         CallGetControlPlaneMachines (ctxWith fullPair);
         CallGetControlPlaneStatus (ClusterContextOf (ctxWith fullPair));
         CallGetKubeClientForCluster (ClusterContextOf (ctxWith fullPair));
         CallNewBootstrap 7 600000000000%Z;
         CallGovmomiCreate (ctxWith fullPair) "abcdef.0123456789abcdef";
         CallPatch (ctxWith fullPair);
         CallEventf machine "CreateSuccess" "created machine %q" (ctxWith fullPair) ].
Proof.
  assert (H := Create_join_online (packages joining) actuator 0
                 cluster machine 0 1 2 3 (ctxWith fullPair) [other] "" None
                 eq_refl ltac:(vm_compute; discriminate) eq_refl eq_refl
                 ltac:(left; vm_compute; discriminate) eq_refl).
  cbv zeta in H. destruct H as (Httl & Hr & Hc).
  exact (conj Httl (conj Hr Hc)).
Defined.

(** [Create_missing_ca_key_pair] on a cluster with no certificate. *)
Lemma Create_missing_ca_key_pair_run :
  resultOf (run missingCert) = Some (RequeueAfterError 20000000000%Z)
  /\ count isBackendCreate (callsOf (run missingCert)) = 0.
Proof.
  assert (H := Create_missing_ca_key_pair (packages missingCert) actuator 0
                 cluster machine 0 1 (ctxWith noCert)
                 eq_refl ltac:(vm_compute; discriminate) (or_introl eq_refl)).
  cbv zeta in H. destruct H as (Hr & _ & _ & Hb).
  exact (conj Hr Hb).
Defined.

(** [Create_unresolved_role] on a machine with no role. *)
Lemma Create_unresolved_role_run :
  resultOf (run noRole)
  = Some (Errorf "unable to get machine role while creating machine %q"
            (ctxWith noCert))
  /\ count isBackendCreate (callsOf (run noRole)) = 0
  /\ count isGetControlPlaneMachines (callsOf (run noRole)) = 0.
Proof.
  assert (H := Create_unresolved_role (packages noRole) actuator 0
                 cluster machine 0 1 (ctxWith noCert) eq_refl eq_refl).
  cbv zeta in H. destruct H as (Hr & _ & _ & Hb & Hm).
  exact (conj Hr (conj Hb Hm)).
Defined.

(** Against C6 as stated.  A requeue is reported as a failure: with the
    certificate missing [Create] returns a requeue and records the warning
    [CreateFailure]; and when the context cannot be built it returns the
    error and records nothing. *)
Lemma Create_requeue_records_failure :
  isRequeueAfter (resultOf (run missingCert)) = true
  /\ count isFailureEvent (callsOf (run missingCert)) = 1
  /\ last (callsOf (run missingCert)) (CallPatch (ctxWith noCert))
     = CallWarnf machine "CreateFailure" "failed to create machine %q: %v"
         (ctxWith noCert) (RequeueAfterError 20000000000%Z)
  /\ resultOf (run noContext) = Some (Opaque "cluster provider config is invalid")
  /\ count isEvent (callsOf (run noContext)) = 0.
Proof. repeat split; reflexivity. Qed.

(** Against C7 as stated.  With no role the context is built and never
    patched. *)
Lemma Create_no_role_no_patch :
  NewMachineContext (packages noRole) (createParams actuator 0 cluster machine) 0
  = (inl (ctxWith noCert), 1)
  /\ count isPatch (callsOf (run noRole)) = 0
  /\ callsOf (run noRole) =
       [ CallNewMachineContext (createParams actuator 0 cluster machine);
         CallWarnf machine "CreateFailure" "failed to create machine %q: %v"
           (ctxWith noCert)
           (Errorf "unable to get machine role while creating machine %q"
              (ctxWith noCert)) ].
Proof. repeat split; reflexivity. Qed.

(** [Create_reads_online_only] on a worker, with a probe that reports an
    error along with [online] and one that does not. *)
Lemma Create_reads_online_only_run :
  Create (withStatusProbe (packages joining) noisyProbe) actuator 0 cluster machine 0
  = Create (withStatusProbe (packages joining) quietProbe) actuator 0 cluster machine 0
  /\ resultOf
       (Create (withStatusProbe (packages joining) noisyProbe) actuator 0 cluster machine 0)
     = None.
Proof.
  split.
  - apply (Create_reads_online_only (packages joining) actuator 0 cluster machine
             noisyProbe quietProbe 0).
    intros ctx w. split; reflexivity.
  - reflexivity.
Defined.

(** [Delete_destroys_once] on a control-plane machine of an offline control
    plane, with a backend that fails. *)
Lemma Delete_destroys_once_run :
  resultOf (Delete (packages stuck) actuator 0 cluster machine 0)
  = Some (Opaque "vm is locked by another task")
  /\ count isBackendDelete
       (callsOf (Delete (packages stuck) actuator 0 cluster machine 0)) = 1.
Proof.
  assert (H := Delete_destroys_once (packages stuck) actuator 0 cluster machine
                 0 1 2 (ctxWith fullPair)
                 (Some (Opaque "vm is locked by another task")) eq_refl eq_refl).
  cbv zeta in H. destruct H as (Hr & _ & Hb & _).
  exact (conj Hr Hb).
Defined.

End Runs.

(** ** Further properties of the entry points *)

Section FurtherCreateProperties.
Context {W : Type} (P : Packages W).
Variables (a : Actuator) (parentCtx : GoContext) (cluster : Cluster)
  (machine : Machine).

Local Abbreviation params := (createParams a parentCtx cluster machine).

(** When the membership query fails, [Create] returns its error wrapped,
    patches the context and records the failure; the status probe, the
    client, the token issuer and the backend are not called, and the world
    is the one the query left, patched. *)
Theorem Create_membership_query_failure :
  forall (w0 w1 w2 : W) (ctx : MachineContext) (err : error),
    NewMachineContext P params w0 = (inl ctx, w1) ->
    Role P ctx <> "" ->
    HasCertAndKey (CAKeyPair (ClusterConfig (ClusterContextOf ctx))) = true ->
    GetControlPlaneMachines P ctx w1 = (inr err, w2) ->
    let o := Create P a parentCtx cluster machine w0 in
    let result :=
      Some (Wrapf err
        "unable to get control plane machines while creating machine %q" ctx) in
    resultOf o = result
    /\ callsOf o =
         createPrologue a parentCtx cluster machine (Role P ctx)
         ++ [ CallGetControlPlaneMachines ctx; CallPatch ctx; createEvent ctx result ]
    /\ worldOf o = Patch P ctx w2
    /\ count isGetControlPlaneStatus (callsOf o) = 0
    /\ count isBackendCreate (callsOf o) = 0.
Proof.
  intros w0 w1 w2 ctx err Hctx Hrole Hca Hms o result.
  subst o result. unfold_actuator.
  apply String.eqb_neq in Hrole.
  step Hctx. step Hrole. step Hca. step Hms.
  repeat split; reflexivity.
Qed.

(** Once the context is built, every error [Create] returns is one it made
    itself: the role error, a collaborator's error under one of five
    [Wrapf] formats, or a requeue after [RequeueAfterSeconds] or one
    minute.  A collaborator's error is never returned bare.  Only the
    error of the context builder is returned as it is. *)
Theorem Create_errors_are_its_own :
  forall (w0 : W),
    let o := Create P a parentCtx cluster machine w0 in
    match NewMachineContext P params w0 with
    | (inr err, _) => resultOf o = Some err
    | (inl ctx, _) =>
      match resultOf o with
      | None => True
      | Some e => madeByCreate P ctx e
      end
    end.
Proof.
  intros w0 o. subst o. unfold_actuator.
  destruct (NewMachineContext P params w0) as [[ctx | err] w1]; cbn;
    [| reflexivity].
  all_paths; unfold createWrapFormats; cbn; auto 10.
Qed.

(** A [Create] that returns a requeue has called neither the backend, nor
    the token issuer, nor the client factory: nothing was provisioned and
    no token is left behind. *)
Theorem Create_requeue_provisions_nothing :
  forall (w0 : W),
    let o := Create P a parentCtx cluster machine w0 in
    isRequeueAfter (resultOf o) = true ->
    count isBackendCreate (callsOf o) = 0
    /\ count isNewBootstrap (callsOf o) = 0
    /\ count isGetKubeClient (callsOf o) = 0.
Proof.
  intros w0 o. subst o. unfold_actuator.
  destruct (NewMachineContext P params w0) as [[ctx | err] w1]; cbn;
    [| intros _; repeat split; reflexivity].
  all_paths; intros H; try discriminate H; repeat split; reflexivity.
Qed.

(** A [Create] that returns nil has built its context, called the backend
    exactly once, patched the context exactly once, and recorded
    [CreateSuccess] last. *)
Theorem Create_nil_means_created :
  forall (w0 : W),
    let o := Create P a parentCtx cluster machine w0 in
    resultOf o = None ->
    match NewMachineContext P params w0 with
    | (inr _, _) => False
    | (inl ctx, _) =>
      count isBackendCreate (callsOf o) = 1
      /\ count isPatch (callsOf o) = 1
      /\ last (callsOf o) (CallPatch ctx)
         = CallEventf (MachineOf ctx) "CreateSuccess" "created machine %q" ctx
    end.
Proof.
  intros w0 o. subst o. unfold_actuator.
  destruct (NewMachineContext P params w0) as [[ctx | err] w1]; cbn;
    [| intros H; discriminate H].
  all_paths; intros H; try discriminate H; repeat split; reflexivity.
Qed.


End FurtherCreateProperties.

Section FurtherDeleteExistsProperties.
Context {W : Type}.
Variables (a : Actuator) (parentCtx : GoContext) (cluster : Cluster)
  (machine : Machine).

Local Abbreviation params := (paramsOf a parentCtx cluster machine None).

(** When the context cannot be built, [Delete] returns the builder's error
    as it is and does nothing else: no backend call, no patch, no event,
    and the world is the one the builder left. *)
Theorem Delete_unbuilt_context :
  forall (P : Packages W) (w0 w1 : W) (err : error),
    NewMachineContext P params w0 = (inr err, w1) ->
    Delete P a parentCtx cluster machine w0
    = (Some err, (w1, [ CallNewMachineContext params ])).
Proof.
  intros P w0 w1 err Hctx. unfold_actuator. step Hctx. reflexivity.
Qed.

(** [Delete] reads the context builder, the backend's delete and the patch
    only: with these three the same, its result, its calls and the world
    it leaves are the same, whatever the role, the membership, the status
    of the control plane, the token issuer and the constants are. *)
Theorem Delete_reads_three_collaborators :
  forall (P1 P2 : Packages W) (w0 : W),
    sameForDelete P1 P2 ->
    Delete P1 a parentCtx cluster machine w0
    = Delete P2 a parentCtx cluster machine w0.
Proof.
  intros P1 P2 w0 (Hctx & Hdelete & Hpatch). unfold_actuator. cbn.
  rewrite (Hctx params w0).
  destruct (NewMachineContext P2 params w0) as [[ctx | err] w1]; cbn;
    [| reflexivity].
  rewrite (Hdelete ctx w1).
  destruct (govmomi_Delete P2 ctx w1) as [[err|] w2]; cbn;
    rewrite (Hpatch ctx w2); reflexivity.
Qed.

(** [Exists] reads the context builder and the backend's query only, not
    even the patch. *)
Theorem Exists_reads_two_collaborators :
  forall (P1 P2 : Packages W) (w0 : W),
    sameForExists P1 P2 ->
    Exists P1 a parentCtx cluster machine w0
    = Exists P2 a parentCtx cluster machine w0.
Proof.
  intros P1 P2 w0 (Hctx & Hexists). unfold_actuator. cbn.
  rewrite (Hctx params w0).
  destruct (NewMachineContext P2 params w0) as [[ctx | err] w1]; cbn;
    [| reflexivity].
  rewrite (Hexists ctx w1). reflexivity.
Qed.

End FurtherDeleteExistsProperties.

(** ** The further properties on the sample world *)

Section FurtherRuns.
Import Sample Scenarios.

Local Abbreviation run s := (Create (packages s) actuator 0 cluster machine 0).

(** [Create_membership_query_failure] on a worker whose query fails. *)
Lemma Create_membership_query_failure_run :
  resultOf (run membershipDown)
  = Some (Wrapf (Opaque "the server is currently unable to handle the request")
            "unable to get control plane machines while creating machine %q"
            (ctxWith fullPair))
  /\ count isBackendCreate (callsOf (run membershipDown)) = 0.
Proof.
  assert (H := Create_membership_query_failure (packages membershipDown)
                 actuator 0 cluster machine 0 1 2 (ctxWith fullPair)
                 (Opaque "the server is currently unable to handle the request")
                 eq_refl ltac:(vm_compute; discriminate) eq_refl eq_refl).
  cbv zeta in H. destruct H as (Hr & _ & _ & _ & Hb).
  exact (conj Hr Hb).
Defined.

(** [Create_requeue_provisions_nothing] on a worker whose control plane is
    offline. *)
Lemma Create_requeue_provisions_nothing_run :
  isRequeueAfter (resultOf (run offline)) = true
  /\ count isBackendCreate (callsOf (run offline)) = 0
  /\ count isNewBootstrap (callsOf (run offline)) = 0
  /\ count isGetKubeClient (callsOf (run offline)) = 0.
Proof.
  split; [reflexivity|].
  exact (Create_requeue_provisions_nothing (packages offline) actuator 0
           cluster machine 0 eq_refl).
Defined.

(** [Create_nil_means_created] on a worker joining an online control
    plane. *)
Lemma Create_nil_means_created_run :
  resultOf (run joining) = None
  /\ count isBackendCreate (callsOf (run joining)) = 1
  /\ count isPatch (callsOf (run joining)) = 1.
Proof.
  split; [reflexivity|].
  assert (H := Create_nil_means_created (packages joining) actuator 0
                 cluster machine 0 eq_refl).
  cbv zeta in H. cbn in H. destruct H as (Hb & Hp & _).
  exact (conj Hb Hp).
Defined.

(** [Delete_unbuilt_context] when the context cannot be built. *)
Lemma Delete_unbuilt_context_run :
  Delete (packages noContext) actuator 0 cluster machine 0
  = (Some (Opaque "cluster provider config is invalid"),
     (1, [ CallNewMachineContext (paramsOf actuator 0 cluster machine None) ])).
Proof.
  exact (Delete_unbuilt_context actuator 0 cluster machine (packages noContext)
           0 1 (Opaque "cluster provider config is invalid") eq_refl).
Defined.

(** [Delete_reads_three_collaborators] on one machine seen as a
    control-plane machine of an offline control plane and as a worker of
    an online one. *)
Lemma Delete_reads_three_collaborators_run :
  Delete (packages stuck) actuator 0 cluster machine 0
  = Delete (packages stuckWorker) actuator 0 cluster machine 0
  /\ Role (packages stuck) (ctxWith fullPair)
     <> Role (packages stuckWorker) (ctxWith fullPair).
Proof.
  split.
  - apply (Delete_reads_three_collaborators actuator 0 cluster machine
             (packages stuck) (packages stuckWorker) 0).
    repeat split; reflexivity.
  - vm_compute. discriminate.
Defined.

(** [Exists_reads_two_collaborators] on the same two views. *)
Lemma Exists_reads_two_collaborators_run :
  Exists (packages stuck) actuator 0 cluster machine 0
  = Exists (packages stuckWorker) actuator 0 cluster machine 0
  /\ resultOf (Exists (packages stuck) actuator 0 cluster machine 0) = (true, None).
Proof.
  split.
  - apply (Exists_reads_two_collaborators actuator 0 cluster machine
             (packages stuck) (packages stuckWorker) 0).
    split; reflexivity.
  - reflexivity.
Defined.

End FurtherRuns.
